(** * webcloud: the CI workflow, the Card component and the theme snippets

    The repository holds three unrelated artifacts:
    - a GitHub Actions workflow (Visual Regression Test),
    - [components/card.js], one react-fela component,
    - an article whose JavaScript snippets install a theme switcher.

    Each one is embedded in a module of its own.  The workflow and the
    component are data handed to a host (the Actions runner, react-fela's
    [createComponent]); the host's documented behaviour is written as an
    executable interpreter next to the data, so that statements about
    "what runs" and "what is rendered" are statements about a computation. *)

From stdpp Require Import gmap strings list pretty.
From Stdlib Require Import ZArith Ascii String.

Local Open Scope string_scope.
Local Open Scope Z_scope.
Local Set Warnings "-register-all".

(* ===================================================================== *)
(** ** GitHub Actions: contexts, expressions, steps                       *)
(* ===================================================================== *)

(** The workflow file is data for the Actions runner.  The definitions
    below follow GitHub's documentation of the workflow syntax and of the
    expression language: event filter, [if:] conditions, status check
    functions, sequential steps, [continue-on-error], [env:] bindings. *)

Module Actions.

(** Values of the expression language and of the [github] context. *)
Inductive Json :=
| JNull
| JBool (b : bool)
| JNum (n : Z)
| JStr (s : string)
| JObj (fields : list (string * Json)).

Fixpoint assoc {A} (k : string) (l : list (string * A)) : option A :=
  match l with
  | [] => None
  | (k', v) :: rest => if String.eqb k k' then Some v else assoc k rest
  end.

Definition lower_ascii (c : ascii) : ascii :=
  let n := nat_of_ascii c in
  if ((65 <=? n)%nat && (n <=? 90)%nat)%bool then ascii_of_nat (n + 32) else c.

Fixpoint lower (s : string) : string :=
  match s with
  | EmptyString => EmptyString
  | String c rest => String (lower_ascii c) (lower rest)
  end.

(** The runner matches the names of properties, contexts and secrets
    ignoring letter case. *)
Fixpoint assoc_nocase {A} (k : string) (l : list (string * A)) : option A :=
  match l with
  | [] => None
  | (k', v) :: rest =>
      if String.eqb (lower k) (lower k') then Some v else assoc_nocase k rest
  end.

(** Property dereference [v.p1.p2...]; a missing property is [null]. *)
Fixpoint deref (v : Json) (path : list string) : Json :=
  match path with
  | [] => v
  | p :: rest =>
      match v with
      | JObj fields =>
          match assoc_nocase p fields with
          | Some v' => deref v' rest
          | None => JNull
          end
      | _ => JNull
      end
  end.

(** The webhook event that starts a run, and the repository secrets. *)
Record Event := {
  event_name : string;
  event_payload : Json;
}.

Record Context := {
  ctx_event : Event;
  ctx_secrets : gmap string string;
}.

(** The states a deployment status can take in the GitHub API. *)
Inductive DeploymentState :=
| error | failure | inactive | in_progress | queued | pending | success.

#[global] Instance DeploymentState_eq_dec : EqDecision DeploymentState.
Proof. solve_decision. Defined.

Definition state_name (s : DeploymentState) : string :=
  match s with
  | error => "error"
  | failure => "failure"
  | inactive => "inactive"
  | in_progress => "in_progress"
  | queued => "queued"
  | pending => "pending"
  | success => "success"
  end.

Record DeploymentStatus := {
  state : DeploymentState;
  target_url : string;
}.

(** The [deployment_status] webhook event as GitHub sends it (the fields
    the workflow reads). *)
Definition deployment_status_event (d : DeploymentStatus) : Event :=
  {| event_name := "deployment_status";
     event_payload :=
       JObj [("deployment_status",
              JObj [("state", JStr (state_name (state d)));
                    ("target_url", JStr (target_url d))])] |}.

(** Status check functions. *)
Inductive StatusFn := fn_success | fn_always | fn_failure | fn_cancelled.

(** The fragment of the expression language used by workflows like this
    one: literals, context access, [==] and the status functions. *)
Inductive Expr :=
| Lit (s : string)
| Ctx (root : string) (path : list string)
| Eq (a b : Expr)
| Status (f : StatusFn).

Inductive JobStatus := StatusSuccess | StatusFailure.

(** [==] is loose: strings are compared ignoring case.  Operands of
    different types are coerced to numbers by the runner; that coercion
    is outside this fragment, and so is object identity: [None]. *)
Definition loose_eq (a b : Json) : option bool :=
  match a, b with
  | JNull, JNull => Some true
  | JBool x, JBool y => Some (Bool.eqb x y)
  | JNum x, JNum y => Some (x =? y)
  | JStr x, JStr y => Some (String.eqb (lower x) (lower y))
  | _, _ => None
  end.

(** The secret stored under a name, whatever the letter case the name
    is written in. *)
Definition lookup_secret (secrets : gmap string string) (k : string) : option string :=
  assoc_nocase k (map_to_list secrets).

Definition lookup_ctx (c : Context) (root : string) (path : list string) : Json :=
  if String.eqb (lower root) "github" then
    match path with
    | p :: rest =>
        if String.eqb (lower p) "event_name"
        then deref (JStr (event_name (ctx_event c))) rest
        else if String.eqb (lower p) "event"
        then deref (event_payload (ctx_event c)) rest
        else JNull
    | [] => JNull
    end
  else if String.eqb (lower root) "secrets" then
    match path with
    | [k] => match lookup_secret (ctx_secrets c) k with Some v => JStr v | None => JNull end
    | _ => JNull
    end
  else JNull.

Definition status_fn (f : StatusFn) (st : JobStatus) : bool :=
  match f, st with
  | fn_success, StatusSuccess => true
  | fn_success, StatusFailure => false
  | fn_always, _ => true
  | fn_failure, StatusSuccess => false
  | fn_failure, StatusFailure => true
  | fn_cancelled, _ => false
  end.

Fixpoint eval (c : Context) (st : JobStatus) (e : Expr) : option Json :=
  match e with
  | Lit s => Some (JStr s)
  | Ctx root path => Some (lookup_ctx c root path)
  | Eq a b =>
      match eval c st a, eval c st b with
      | Some x, Some y => JBool <$> loose_eq x y
      | _, _ => None
      end
  | Status f => Some (JBool (status_fn f st))
  end.

(** Truthiness: [false], [0], [''] and [null] are falsy. *)
Definition truthy (v : Json) : bool :=
  match v with
  | JNull => false
  | JBool b => b
  | JNum n => negb (n =? 0)
  | JStr s => negb (String.eqb s "")
  | JObj _ => true
  end.

(** Rendering of a value inside [${{ }}]. *)
Definition render (v : Json) : string :=
  match v with
  | JNull => ""
  | JBool true => "true"
  | JBool false => "false"
  | JNum n => pretty n
  | JStr s => s
  | JObj _ => "Object"
  end.

Fixpoint has_status_fn (e : Expr) : bool :=
  match e with
  | Lit _ | Ctx _ _ => false
  | Eq a b => has_status_fn a || has_status_fn b
  | Status _ => true
  end.

(** An [if:] condition.  An absent condition is [success()]; a condition
    that calls no status function is implicitly conjoined with
    [success()]. *)
Definition condition (c : Context) (st : JobStatus) (cond : option Expr) : bool :=
  match cond with
  | None => status_fn fn_success st
  | Some e =>
      let v := match eval c st e with Some v => truthy v | None => false end in
      if has_status_fn e then v else status_fn fn_success st && v
  end.

(** Workflow syntax. *)
Inductive Action :=
| Uses (action : string) (with_ : list (string * string))
| Run (command : string).

Record Step := {
  step_name : string;
  step_action : Action;
  step_if : option Expr;
  step_env : list (string * Expr);
  continue_on_error : bool;
}.

Record Job := {
  job_if : option Expr;
  runs_on : string;
  job_env : list (string * Expr);
  steps : list Step;
}.

Record Workflow := {
  name : string;
  on_ : list string;
  env : list (string * Expr);
  jobs : list (string * Job);
}.

(** What the runner is asked to execute for one step: the action and the
    environment variables the workflow sets for it. *)
Record Exec := {
  exec_action : Action;
  exec_env : list (string * string);
}.

(** The outside world: the exit code of whatever a step executes. *)
Definition Runner := Exec → Z.

Inductive StepResult :=
| Skipped
| Ran (e : Exec) (exit_code : Z).

Definition eval_env (c : Context) (st : JobStatus) (bs : list (string * Expr))
  : list (string * string) :=
  (λ kv, (kv.1, match eval c st kv.2 with Some v => render v | None => "" end)) <$> bs.

(** Environment of a step: workflow, then job, then step bindings, the
    most specific binding winning. *)
Definition step_exec (c : Context) (st : JobStatus) (w : Workflow) (j : Job) (s : Step) : Exec :=
  let outer := (eval_env c st (env w) ++ eval_env c st (job_env j))%list in
  let own := eval_env c st (step_env s) in
  {| exec_action := step_action s;
     exec_env := (filter (λ kv, bool_decide (assoc kv.1 own = None)) outer ++ own)%list |}.

(** Steps run one after the other; each sees the job status left by its
    predecessors.  A failing step marks the job failed unless it carries
    [continue-on-error]. *)
Fixpoint run_steps (r : Runner) (c : Context) (w : Workflow) (j : Job)
    (st : JobStatus) (ss : list Step) : list (string * StepResult) * JobStatus :=
  match ss with
  | [] => ([], st)
  | s :: rest =>
      if condition c st (step_if s) then
        let e := step_exec c st w j s in
        let code := r e in
        let st' := if (code =? 0) || continue_on_error s then st else StatusFailure in
        let '(log, final) := run_steps r c w j st' rest in
        ((step_name s, Ran e code) :: log, final)
      else
        let '(log, final) := run_steps r c w j st rest in
        ((step_name s, Skipped) :: log, final)
  end.

Inductive JobResult :=
| JobSkipped
| JobRan (log : list (string * StepResult)) (conclusion : JobStatus).

Definition run_job (r : Runner) (c : Context) (w : Workflow) (j : Job) : JobResult :=
  if condition c StatusSuccess (job_if j) then
    let '(log, final) := run_steps r c w j StatusSuccess (steps j) in
    JobRan log final
  else JobSkipped.

(** A deployment status set to inactive starts no workflow run. *)
Definition inactive_deployment_status (ev : Event) : bool :=
  String.eqb (event_name ev) "deployment_status"
  && match deref (event_payload ev) ["deployment_status"; "state"] with
     | JStr s => String.eqb s "inactive"
     | _ => false
     end.

Definition triggers (w : Workflow) (ev : Event) : bool :=
  bool_decide (event_name ev ∈ on_ w) && negb (inactive_deployment_status ev).

(** A workflow run: [None] when the event does not trigger the workflow,
    otherwise the result of each job. *)
Definition run_workflow (r : Runner) (secrets : gmap string string)
    (w : Workflow) (ev : Event) : option (list (string * JobResult)) :=
  if triggers w ev then
    let c := {| ctx_event := ev; ctx_secrets := secrets |} in
    Some ((λ nj, (nj.1, run_job r c w nj.2)) <$> jobs w)
  else None.

(** *** The workflow of the repository *)

Definition checkout_step : Step :=
  {| step_name := "Checkout";
     step_action := Uses "actions/checkout@v1.0.0" [];
     step_if := None;
     step_env := [];
     continue_on_error := false |}.

Definition install_step : Step :=
  {| step_name := "Install";
     step_action := Run "npm install";
     step_if := None;
     step_env := [];
     continue_on_error := false |}.

Definition percy_step : Step :=
  {| step_name := "Percy Test";
     step_action := Uses "percy/exec-action@v0.3.0"
                      [("command", "node test/snapshots.js"); ("verbose", "true")];
     step_if := None;
     step_env := [("PERCY_TOKEN", Ctx "secrets" ["PERCY_TOKEN"]);
                  ("DEPLOY_URL", Ctx "github" ["event"; "deployment_status"; "target_url"])];
     continue_on_error := false |}.

Definition build : Job :=
  {| job_if := Some (Eq (Ctx "github" ["event"; "deployment_status"; "state"])
                        (Lit "success"));
     runs_on := "ubuntu-latest";
     job_env := [];
     steps := [checkout_step; install_step; percy_step] |}.

Definition visual_regression_test : Workflow :=
  {| name := "Visual Regression Test";
     on_ := ["deployment_status"];
     env := [];
     jobs := [("build", build)] |}.

(** Observations on a run of the repository's workflow. *)

Definition build_result (r : Runner) (secrets : gmap string string) (ev : Event)
  : option JobResult :=
  run_workflow r secrets visual_regression_test ev ≫= assoc "build".

(** The build job runs: the workflow is triggered and the job is not
    skipped. *)
Definition build_runs (r : Runner) (secrets : gmap string string) (ev : Event) : bool :=
  match build_result r secrets ev with
  | Some (JobRan _ _) => true
  | _ => false
  end.

Definition build_log (r : Runner) (secrets : gmap string string) (ev : Event)
  : list (string * StepResult) :=
  match build_result r secrets ev with
  | Some (JobRan log _) => log
  | _ => []
  end.

(** The actions executed, in execution order. *)
Definition executed (log : list (string * StepResult)) : list Exec :=
  omap (λ e, match e.2 with Ran x _ => Some x | Skipped => None end) log.

(** What each step of the build job hands to the runner. *)

Definition checkout_exec : Exec :=
  {| exec_action := Uses "actions/checkout@v1.0.0" []; exec_env := [] |}.

Definition install_exec : Exec :=
  {| exec_action := Run "npm install"; exec_env := [] |}.

Definition percy_exec (c : Context) : Exec :=
  {| exec_action := Uses "percy/exec-action@v0.3.0"
                      [("command", "node test/snapshots.js"); ("verbose", "true")];
     exec_env :=
       [("PERCY_TOKEN", render (lookup_ctx c "secrets" ["PERCY_TOKEN"]));
        ("DEPLOY_URL",
         render (lookup_ctx c "github" ["event"; "deployment_status"; "target_url"]))] |}.

(** The three outcomes a run of the build job's steps can have, by the
    exit codes of the steps. *)
Definition build_trace (r : Runner) (c : Context)
  : list (string * StepResult) * JobStatus :=
  let c1 := r checkout_exec in
  if c1 =? 0 then
    let c2 := r install_exec in
    if c2 =? 0 then
      let c3 := r (percy_exec c) in
      ([("Checkout", Ran checkout_exec c1); ("Install", Ran install_exec c2);
        ("Percy Test", Ran (percy_exec c) c3)],
       if c3 =? 0 then StatusSuccess else StatusFailure)
    else
      ([("Checkout", Ran checkout_exec c1); ("Install", Ran install_exec c2);
        ("Percy Test", Skipped)], StatusFailure)
  else
    ([("Checkout", Ran checkout_exec c1); ("Install", Skipped);
      ("Percy Test", Skipped)], StatusFailure).


(** The actions of the build job, in the order the workflow lists them. *)
Definition build_actions : list Action :=
  [Uses "actions/checkout@v1.0.0" [];
   Run "npm install";
   Uses "percy/exec-action@v0.3.0"
     [("command", "node test/snapshots.js"); ("verbose", "true")]].

(** A runner on which the checkout action fails and everything else
    succeeds, one on which everything succeeds, and a successful
    deployment, for concrete runs. *)
Definition checkout_fails : Runner :=
  λ e, match exec_action e with
       | Uses a _ => if String.eqb a "actions/checkout@v1.0.0" then 1 else 0
       | Run _ => 0
       end.

Definition install_fails : Runner :=
  λ e, match exec_action e with
       | Uses _ _ => 0
       | Run _ => 1
       end.

Definition all_pass : Runner := λ _, 0.

Definition deployed : Event :=
  deployment_status_event {| state := success; target_url := "https://webcloud.example" |}.

(** *** Facts about the interpreter *)

Lemma lower_success (s : DeploymentState) :
  String.eqb (lower (state_name s)) (lower "success") = bool_decide (s = success).
Proof. destruct s; reflexivity. Qed.

Lemma not_triggered (r : Runner) (secrets : gmap string string) (ev : Event) :
  event_name ev ≠ "deployment_status" → build_result r secrets ev = None.
Proof.
  intros Hne. unfold build_result, run_workflow, triggers.
  rewrite bool_decide_eq_false_2; [reflexivity|].
  intros Hin. apply list_elem_of_singleton in Hin. contradiction.
Qed.

Lemma deref_state (d : DeploymentStatus) :
  deref (event_payload (deployment_status_event d)) ["deployment_status"; "state"]
  = JStr (state_name (state d)).
Proof. reflexivity. Qed.

Lemma triggers_deployment (d : DeploymentStatus) :
  triggers visual_regression_test (deployment_status_event d)
  = negb (bool_decide (state d = inactive)).
Proof. by destruct d as [[] url]. Qed.

(** Whether the build job runs does not depend on what its steps do. *)
Lemma build_runs_eq (r : Runner) (secrets : gmap string string) (ev : Event) :
  build_runs r secrets ev
  = triggers visual_regression_test ev
    && condition {| ctx_event := ev; ctx_secrets := secrets |} StatusSuccess (job_if build).
Proof.
  unfold build_runs, build_result, run_workflow.
  destruct (triggers _ _); [|reflexivity].
  cbn -[run_job condition]. unfold run_job.
  destruct (condition _ _ _); [|reflexivity].
  by destruct (run_steps _ _ _ _ _ _).
Qed.

Lemma build_condition_eq (c : Context) :
  condition c StatusSuccess (job_if build)
  = match deref (event_payload (ctx_event c)) ["deployment_status"; "state"] with
    | JStr s => String.eqb (lower s) "success"
    | _ => false
    end.
Proof.
  unfold condition. cbn -[deref lookup_ctx].
  change (lookup_ctx c "github" ["event"; "deployment_status"; "state"])
    with (deref (event_payload (ctx_event c)) ["deployment_status"; "state"]).
  by destruct (deref _ _).
Qed.

(** Every event on which the build job runs is a [deployment_status]
    event whose state reads "success" up to letter case. *)
Lemma build_runs_inv (r : Runner) (secrets : gmap string string) (ev : Event) :
  build_runs r secrets ev = true →
  event_name ev = "deployment_status"
  ∧ ∃ s, deref (event_payload ev) ["deployment_status"; "state"] = JStr s
         ∧ lower s = "success".
Proof.
  rewrite build_runs_eq, build_condition_eq. unfold triggers. cbn [ctx_event].
  intros [[Htrig _]%andb_prop Hcond]%andb_prop. split.
  - apply bool_decide_eq_true_1 in Htrig. by apply list_elem_of_singleton in Htrig.
  - destruct (deref _ _) as [|b|n|s|fields]; try discriminate.
    exists s. split; [reflexivity|]. by apply String.eqb_eq.
Qed.

Lemma run_steps_build (r : Runner) (c : Context) :
  run_steps r c visual_regression_test build StatusSuccess (steps build)
  = build_trace r c.
Proof.
  unfold build_trace. cbn -[Z.eqb lookup_ctx].
  change (step_exec c StatusSuccess visual_regression_test build checkout_step)
    with checkout_exec.
  destruct (r checkout_exec =? 0); cbn -[Z.eqb lookup_ctx]; [|reflexivity].
  change (step_exec c StatusSuccess visual_regression_test build install_step)
    with install_exec.
  destruct (r install_exec =? 0); cbn -[Z.eqb lookup_ctx]; [|reflexivity].
  change (step_exec c StatusSuccess visual_regression_test build percy_step)
    with (percy_exec c).
  by destruct (r (percy_exec c) =? 0).
Qed.

Lemma build_result_eq (r : Runner) (secrets : gmap string string) (ev : Event) :
  build_result r secrets ev
  = if triggers visual_regression_test ev then
      Some (if condition {| ctx_event := ev; ctx_secrets := secrets |}
                 StatusSuccess (job_if build)
            then JobRan (build_trace r {| ctx_event := ev; ctx_secrets := secrets |}).1
                        (build_trace r {| ctx_event := ev; ctx_secrets := secrets |}).2
            else JobSkipped)
    else None.
Proof.
  unfold build_result, run_workflow.
  destruct (triggers _ _); [|reflexivity].
  cbn -[run_job condition]. unfold run_job.
  destruct (condition _ _ _); [|reflexivity].
  rewrite run_steps_build. by destruct (build_trace _ _).
Qed.

Lemma build_log_success (r : Runner) (secrets : gmap string string) (d : DeploymentStatus) :
  state d = success →
  build_log r secrets (deployment_status_event d)
  = (build_trace r {| ctx_event := deployment_status_event d; ctx_secrets := secrets |}).1.
Proof.
  intros Hst. unfold build_log.
  rewrite build_result_eq, build_condition_eq, triggers_deployment.
  cbn -[build_trace]. rewrite Hst. reflexivity.
Qed.

(** C1: the build job runs exactly on the [deployment_status] events whose
    state is "success": for an event as the API sends it, the job runs if
    and only if its state is [success]; and on an event of any other
    name nothing runs at all. *)
Theorem build_runs_iff_state_success (r : Runner) (secrets : gmap string string) :
  (∀ d : DeploymentStatus,
      build_runs r secrets (deployment_status_event d) = true ↔ state d = success)
  ∧ (∀ ev : Event,
      event_name ev ≠ "deployment_status" → build_runs r secrets ev = false).
Proof.
  split.
  - intros d. rewrite build_runs_eq, build_condition_eq, triggers_deployment.
    destruct d as [[] url]; vm_compute; split; intros H; done || discriminate H.
  - intros ev Hne. unfold build_runs. by rewrite not_triggered.
Qed.

Lemma build_log_eq (r : Runner) (secrets : gmap string string) (ev : Event) :
  build_log r secrets ev
  = if build_runs r secrets ev
    then (build_trace r {| ctx_event := ev; ctx_secrets := secrets |}).1
    else [].
Proof.
  unfold build_log, build_runs. rewrite build_result_eq.
  destruct (triggers _ _); [|reflexivity].
  by destruct (condition _ _ _).
Qed.

(** Three concrete runs: a successful deployment on which every step
    passes, a pending deployment, and a push. *)
Example run_deployed :
  build_result all_pass ∅ deployed
  = Some (JobRan
            [("Checkout", Ran checkout_exec 0);
             ("Install", Ran install_exec 0);
             ("Percy Test",
              Ran {| exec_action :=
                       Uses "percy/exec-action@v0.3.0"
                         [("command", "node test/snapshots.js"); ("verbose", "true")];
                     exec_env := [("PERCY_TOKEN", "");
                                  ("DEPLOY_URL", "https://webcloud.example")] |} 0)]
            StatusSuccess).
Proof. reflexivity. Qed.

Example run_pending :
  build_result all_pass ∅
    (deployment_status_event {| state := pending; target_url := "" |})
  = Some JobSkipped.
Proof. reflexivity. Qed.

Example run_inactive :
  build_result all_pass ∅
    (deployment_status_event {| state := inactive; target_url := "" |})
  = None.
Proof. reflexivity. Qed.

Example run_mixed_case_keys :
  build_runs all_pass ∅
    {| event_name := "deployment_status";
       event_payload := JObj [("Deployment_Status", JObj [("State", JStr "success")])] |}
  = true.
Proof. reflexivity. Qed.

Example run_push :
  run_workflow all_pass ∅ visual_regression_test
    {| event_name := "push"; event_payload := JObj [("ref", JStr "refs/heads/master")] |}
  = None.
Proof. reflexivity. Qed.

(** Case analysis on the exit codes that decide the shape of a trace. *)
Ltac trace_cases r c :=
  unfold build_trace in *;
  destruct (r checkout_exec =? 0) eqn:?;
  [ destruct (r install_exec =? 0) eqn:?;
    [ destruct (r (percy_exec c) =? 0) eqn:? | ] | ];
  cbn [fst snd] in *.

Ltac in_log H :=
  apply list_elem_of_In in H; cbn [In] in H;
  repeat match type of H with _ ∨ _ => destruct H as [H|H] end;
  try contradiction; simplify_eq.

(** C2: when the build job runs, the actions it executes are, in order,
    the checkout action, [npm install] and the Percy action with the
    command [node test/snapshots.js]: whatever the exit codes, what is
    executed is an initial segment of that list, and it is the whole list
    when every step exits with zero. *)
Theorem build_steps_in_order (r : Runner) (secrets : gmap string string)
    (d : DeploymentStatus) :
  state d = success →
  exec_action <$> executed (build_log r secrets (deployment_status_event d))
    `prefix_of` build_actions
  ∧ ((∀ e, r e = 0) →
     exec_action <$> executed (build_log r secrets (deployment_status_event d))
     = build_actions).
Proof.
  intros Hst. rewrite build_log_success by done.
  set (c := {| ctx_event := _; ctx_secrets := _ |}). split.
  - trace_cases r c; cbn; unfold build_actions.
    + reflexivity.
    + reflexivity.
    + by exists [Uses "percy/exec-action@v0.3.0"
                   [("command", "node test/snapshots.js"); ("verbose", "true")]].
    + by exists [Run "npm install";
                 Uses "percy/exec-action@v0.3.0"
                   [("command", "node test/snapshots.js"); ("verbose", "true")]].
  - intros Hok. unfold build_trace. rewrite !Hok. reflexivity.
Qed.

Lemma build_steps_in_order_witness :
  exec_action <$> executed (build_log all_pass ∅ deployed) = build_actions.
Proof.
  refine (proj2 (build_steps_in_order all_pass ∅
            {| state := success; target_url := "https://webcloud.example" |} _) _).
  - reflexivity.
  - intros e. reflexivity.
Defined.





(** C9: the steps run one after the other and stop at the first failure:
    in a run where the Install step exits with a non-zero code, the Percy
    Test step is skipped and never executed. *)
Theorem install_failure_skips_percy (r : Runner) (secrets : gmap string string)
    (ev : Event) (e : Exec) (code : Z) :
  ("Install", Ran e code) ∈ build_log r secrets ev →
  code ≠ 0 →
  ("Percy Test", Skipped) ∈ build_log r secrets ev
  ∧ ∀ e' code', ("Percy Test", Ran e' code') ∉ build_log r secrets ev.
Proof.
  intros Hin Hcode. rewrite build_log_eq in *.
  destruct (build_runs _ _ _); [|by apply elem_of_nil in Hin].
  set (c := {| ctx_event := _; ctx_secrets := _ |}) in *.
  trace_cases r c; in_log Hin.
  - by apply Z.eqb_eq in Heqb0.
  - by apply Z.eqb_eq in Heqb0.
  - split.
    + apply list_elem_of_In. cbn. tauto.
    + intros e' code' Hp. in_log Hp.
Qed.

Lemma install_failure_skips_percy_witness :
  ("Percy Test", Skipped) ∈ build_log install_fails ∅ deployed
  ∧ ∀ e' code', ("Percy Test", Ran e' code') ∉ build_log install_fails ∅ deployed.
Proof.
  apply (install_failure_skips_percy install_fails ∅ deployed install_exec 1).
  - vm_compute. right. left.
  - lia.
Defined.

(** C4, as the specification states it, fails: a run can fail although
    neither the install step nor the test step exited with a non-zero
    code.  With a runner on which the checkout action fails, the build
    job of a successful deployment concludes in failure and the two later
    steps are skipped. *)
Lemma checkout_failure_fails_the_build :
  ¬ (∀ (r : Runner) (secrets : gmap string string) (ev : Event) log,
       build_result r secrets ev = Some (JobRan log StatusFailure) →
       ∃ e code, code ≠ 0
         ∧ (("Install", Ran e code) ∈ log ∨ ("Percy Test", Ran e code) ∈ log)).
Proof.
  intros Hclaim.
  destruct (Hclaim checkout_fails ∅ deployed
              [("Checkout", Ran checkout_exec 1); ("Install", Skipped);
               ("Percy Test", Skipped)] eq_refl)
    as (e & code & _ & [Hin|Hin]); in_log Hin.
Qed.

(** C4, amended: the build job fails exactly when one of its steps
    (Checkout, Install or Percy Test) exits with a non-zero code, and that
    is the only way it fails.  There is no recovery: each step is
    attempted at most once per run, in the listed order, no step carries
    [continue-on-error], and no step has an [if:] that would let it run
    after a failure. *)
Theorem build_fails_iff_a_step_fails (r : Runner) (secrets : gmap string string)
    (ev : Event) (log : list (string * StepResult)) (conclusion : JobStatus) :
  build_result r secrets ev = Some (JobRan log conclusion) →
  (conclusion = StatusFailure ↔ ∃ name e code, (name, Ran e code) ∈ log ∧ code ≠ 0)
  ∧ log.*1 = ["Checkout"; "Install"; "Percy Test"]
  ∧ Forall (λ s, continue_on_error s = false ∧ step_if s = None) (steps build).
Proof.
  intros Hres. rewrite build_result_eq in Hres.
  destruct (triggers _ _); [|discriminate].
  destruct (condition _ _ _); [|discriminate].
  set (c := {| ctx_event := _; ctx_secrets := _ |}) in Hres.
  injection Hres as <- <-.
  split; [|split; [by trace_cases r c|by repeat constructor]].
  trace_cases r c; (split; [intros Hc|intros (name & e & code & Hin & Hcode)]);
    try discriminate; try reflexivity.
  - in_log Hin; by apply Z.eqb_eq in Heqb, Heqb0, Heqb1.
  - exists "Percy Test", (percy_exec c), (r (percy_exec c)). split.
    + apply list_elem_of_In. cbn. tauto.
    + by apply Z.eqb_neq.
  - exists "Install", install_exec, (r install_exec). split.
    + apply list_elem_of_In. cbn. tauto.
    + by apply Z.eqb_neq.
  - exists "Checkout", checkout_exec, (r checkout_exec). split.
    + apply list_elem_of_In. cbn. tauto.
    + by apply Z.eqb_neq.
Qed.

Lemma build_fails_iff_a_step_fails_witness :
  (StatusFailure = StatusFailure
   ↔ ∃ name e code,
       (name, Ran e code) ∈ [("Checkout", Ran checkout_exec 1); ("Install", Skipped);
                             ("Percy Test", Skipped)]
       ∧ code ≠ 0)
  ∧ [("Checkout", Ran checkout_exec 1); ("Install", Skipped); ("Percy Test", Skipped)].*1
    = ["Checkout"; "Install"; "Percy Test"]
  ∧ Forall (λ s, continue_on_error s = false ∧ step_if s = None) (steps build).
Proof.
  apply (build_fails_iff_a_step_fails checkout_fails ∅ deployed).
  reflexivity.
Defined.

(** *** Further properties of the workflow *)

(** Which steps of a run were attempted, whatever they executed. *)
Definition attempted (log : list (string * StepResult)) : list (string * bool) :=
  (λ e, (e.1, match e.2 with Ran _ _ => true | Skipped => false end)) <$> log.

(** X1: on any event at all, with any payload, the build job runs exactly
    when the event is named [deployment_status] and its payload carries
    a string at [deployment_status.state] that reads "success" up to
    letter case.  A payload without that field, or with a value there
    that is no string, never runs the job; neither the secrets nor the
    behaviour of the steps have a say. *)
Theorem build_runs_characterised (r : Runner) (secrets : gmap string string)
    (ev : Event) :
  build_runs r secrets ev = true
  ↔ event_name ev = "deployment_status"
    ∧ ∃ s, deref (event_payload ev) ["deployment_status"; "state"] = JStr s
           ∧ lower s = "success".
Proof.
  split; [apply build_runs_inv|].
  intros (Hname & s & Hstate & Hs).
  rewrite build_runs_eq, build_condition_eq.
  unfold triggers, inactive_deployment_status.
  cbn [ctx_event]. rewrite Hname, Hstate, Hs.
  destruct (String.eqb_spec s "inactive") as [->|_]; [discriminate Hs|reflexivity].
Qed.

(** X2: a deployment status in a state other than success never runs a
    step.  Set to inactive it starts no workflow run at all; in any
    other state (error, failure, in_progress, queued, pending) it starts
    a run in which the build job is skipped, so that nothing fails. *)
Theorem unsuccessful_deployment_skips_build (r : Runner)
    (secrets : gmap string string) (d : DeploymentStatus) :
  state d ≠ success →
  build_result r secrets (deployment_status_event d)
  = (if bool_decide (state d = inactive) then None else Some JobSkipped)
  ∧ build_log r secrets (deployment_status_event d) = [].
Proof.
  intros Hst.
  assert (Hres : build_result r secrets (deployment_status_event d)
                 = if bool_decide (state d = inactive) then None else Some JobSkipped).
  { rewrite build_result_eq, build_condition_eq, triggers_deployment.
    by destruct d as [[] url]. }
  split; [exact Hres|]. unfold build_log. rewrite Hres.
  by destruct (bool_decide _).
Qed.

Lemma unsuccessful_deployment_skips_build_witness :
  build_result checkout_fails ∅
    (deployment_status_event {| state := in_progress; target_url := "" |})
  = Some JobSkipped
  ∧ build_log checkout_fails ∅
      (deployment_status_event {| state := in_progress; target_url := "" |}) = [].
Proof.
  apply (unsuccessful_deployment_skips_build checkout_fails ∅
           {| state := in_progress; target_url := "" |}).
  discriminate.
Defined.

(** X3: which steps are attempted and which are skipped does not depend
    on the secrets or on the deployed URL: two deployments in the same
    state, run with any two sets of secrets, attempt the same steps.  In
    particular a missing [PERCY_TOKEN] never keeps the Percy step from
    being attempted. *)
Theorem attempts_ignore_secrets_and_url (r : Runner)
    (secrets1 secrets2 : gmap string string) (d1 d2 : DeploymentStatus) :
  state d1 = state d2 →
  attempted (build_log r secrets1 (deployment_status_event d1))
  = attempted (build_log r secrets2 (deployment_status_event d2)).
Proof.
  intros Hst.
  rewrite !build_log_eq, !build_runs_eq, !build_condition_eq, !triggers_deployment.
  cbn [ctx_event]. rewrite !deref_state, Hst.
  match goal with |- attempted (if ?b then _ else _) = _ => destruct b end;
    [|reflexivity].
  unfold build_trace.
  destruct (r checkout_exec =? 0); [|reflexivity].
  by destruct (r install_exec =? 0).
Qed.

Lemma attempts_ignore_secrets_and_url_witness :
  attempted (build_log all_pass ∅ deployed)
  = attempted (build_log all_pass {["PERCY_TOKEN" := "t0k3n"]}
                 (deployment_status_event
                    {| state := success; target_url := "https://staging.example" |})).
Proof.
  apply (attempts_ignore_secrets_and_url all_pass ∅ {["PERCY_TOKEN" := "t0k3n"]}
           {| state := success; target_url := "https://webcloud.example" |}
           {| state := success; target_url := "https://staging.example" |}).
  reflexivity.
Defined.

(** X4: the build job cannot conclude in success without the screenshot
    test having run: a successful conclusion means that all three steps
    were executed, none skipped, and that each exited with zero. *)
Theorem green_build_ran_every_step (r : Runner) (secrets : gmap string string)
    (ev : Event) (log : list (string * StepResult)) :
  build_result r secrets ev = Some (JobRan log StatusSuccess) →
  log = [("Checkout", Ran checkout_exec 0);
         ("Install", Ran install_exec 0);
         ("Percy Test",
          Ran (percy_exec {| ctx_event := ev; ctx_secrets := secrets |}) 0)].
Proof.
  intros Hres. rewrite build_result_eq in Hres.
  destruct (triggers _ _); [|discriminate].
  destruct (condition _ _ _); [|discriminate].
  set (c := {| ctx_event := _; ctx_secrets := _ |}) in *.
  injection Hres as <- Hconcl.
  trace_cases r c; try discriminate.
  apply Z.eqb_eq in Heqb, Heqb0, Heqb1. by rewrite Heqb, Heqb0, Heqb1.
Qed.

Lemma green_build_ran_every_step_witness :
  [("Checkout", Ran checkout_exec (all_pass checkout_exec));
   ("Install", Ran install_exec (all_pass install_exec));
   ("Percy Test",
    Ran (percy_exec {| ctx_event := deployed; ctx_secrets := ∅ |})
      (all_pass (percy_exec {| ctx_event := deployed; ctx_secrets := ∅ |})))]
  = [("Checkout", Ran checkout_exec 0);
     ("Install", Ran install_exec 0);
     ("Percy Test", Ran (percy_exec {| ctx_event := deployed; ctx_secrets := ∅ |}) 0)].
Proof.
  apply (green_build_ran_every_step all_pass ∅ deployed). reflexivity.
Defined.

(** X5: in every run, once a step has exited with a non-zero code every
    step listed after it is skipped, whichever step it was. *)
Theorem first_failure_skips_the_rest (r : Runner) (secrets : gmap string string)
    (ev : Event) (before after : list (string * StepResult))
    (name : string) (e : Exec) (code : Z) :
  build_log r secrets ev = (before ++ (name, Ran e code) :: after)%list →
  code ≠ 0 →
  Forall (λ x, x.2 = Skipped) after.
Proof.
  intros Hlog Hcode. rewrite build_log_eq in Hlog.
  destruct (build_runs _ _ _); [|by destruct before].
  set (c := {| ctx_event := _; ctx_secrets := _ |}) in *.
  trace_cases r c;
    repeat match goal with H : (_ =? 0) = true |- _ => apply Z.eqb_eq in H end;
    destruct before as [|x1 [|x2 [|x3 [|x4 before]]]]; simplify_eq/=;
    repeat constructor; congruence.
Qed.

Lemma first_failure_skips_the_rest_witness :
  Forall (λ x : string * StepResult, x.2 = Skipped)
    [("Install", Skipped); ("Percy Test", Skipped)].
Proof.
  apply (first_failure_skips_the_rest checkout_fails ∅ deployed []
           [("Install", Skipped); ("Percy Test", Skipped)]
           "Checkout" checkout_exec 1).
  - reflexivity.
  - lia.
Defined.

End Actions.

(* ===================================================================== *)
(** ** react-fela: [createComponent] and the Card component               *)
(* ===================================================================== *)

(** [card.js] is one call of [createComponent], which it imports from
    react-fela.  The library is no part of the repository; the
    definitions below follow its documentation of [createComponent]. *)

Module Fela.

(** A style object: CSS declarations in insertion order.  Card's values
    are plain strings; nested objects (pseudo classes, media queries) are
    not needed. *)
Definition Style := list (string * string).

(** [style[k] = v] on an object: an existing key keeps its place. *)
Fixpoint set_property (k v : string) (s : Style) : Style :=
  match s with
  | [] => [(k, v)]
  | (k', v') :: rest =>
      if String.eqb k k' then (k, v) :: rest else (k', v') :: set_property k v rest
  end.

(** fela's [assignStyle(base, ext)] on declarations whose values are
    plain strings: the declarations of [ext] are written over [base].
    (The library merges array and nested object values with the value
    they meet instead of replacing it; [Style] has no such values.) *)
Definition assignStyle (base ext : Style) : Style :=
  foldl (λ acc kv, set_property kv.1 kv.2 acc) base ext.

(** The props a rule is called with: the component's own props, the
    theme of the enclosing provider and the [as] and [id] props. *)
Record RuleProps := {
  rp_props : list (string * string);
  rp_theme : list (string * string);
  rp_as : option string;
  rp_id : option string;
}.

(** A rule is a style object or a function of the props. *)
Inductive Rule :=
| RuleObject (s : Style)
| RuleFn (f : RuleProps → Style).

Definition resolveRule (r : Rule) (p : RuleProps) : Style :=
  match r with
  | RuleObject s => s
  | RuleFn f => f p
  end.

Definition combineRules (rules : list Rule) : Rule :=
  RuleFn (λ p, foldl (λ style r, assignStyle style (resolveRule r p)) [] rules).

(** What a component renders to. *)
Record DomProps := {
  dom_className : string;
  dom_id : option string;
  dom_ref : option string;
  dom_style : option Style;
  dom_attrs : list (string * string);
}.

Inductive Node :=
| Text (s : string)
| Element (tag : string) (props : DomProps) (children : list Node).

(** The props of a component made by [createComponent]: the ones
    react-fela reads itself, and all the others. *)
Record Props := {
  children : list Node;
  _felaRule : option Rule;
  extend : option Rule;
  innerRef : option string;
  id : option string;
  style : option Style;
  as_ : option string;
  className : option string;
  passThrough : list string;
  otherProps : list (string * string);
}.

(** Props that carry children and nothing else. *)
Definition only_children (cs : list Node) : Props :=
  {| children := cs; _felaRule := None; extend := None; innerRef := None;
     id := None; style := None; as_ := None; className := None;
     passThrough := []; otherProps := [] |}.

(** The renderer found in the React context: it turns a resolved style
    into class names. *)
Record Renderer := {
  renderStyle : Style → string;
}.

Definition renderRule (rd : Renderer) (r : Rule) (p : RuleProps) : string :=
  renderStyle rd (resolveRule r p).

(** A JavaScript string used as a condition: absent and empty are falsy. *)
Definition truthy (o : option string) : option string :=
  match o with
  | Some s => if String.eqb s "" then None else Some s
  | None => None
  end.

(** The object made of the props that are named and set; a name listed
    twice gives one attribute. *)
Definition extractPassThroughProps (names : list string) (props : list (string * string))
  : list (string * string) :=
  foldl (λ output k,
           match Actions.assoc k props with
           | Some v => set_property k v output
           | None => output
           end) [] names.

(** [createComponent(rule, type = 'div', passThroughProps = [])]. *)
Record Component := {
  rule : Rule;
  type : string;
  passThroughProps : list string;
}.

Definition createComponent (rule : Rule) (type : option string)
    (passThroughProps : option (list string)) : Component :=
  {| rule := rule;
     type := default "div" type;
     passThroughProps := default [] passThroughProps |}.

Definition ruleProps (theme : list (string * string)) (p : Props) : RuleProps :=
  {| rp_props := otherProps p; rp_theme := theme; rp_as := as_ p; rp_id := id p |}.

(** The rule handed to the renderer: the component's rule, then the rule
    of an enclosing fela component, then the [extend] prop. *)
Definition combinedRule (c : Component) (p : Props) : Rule :=
  combineRules (rule c :: option_list (_felaRule p) ++ option_list (extend p))%list.

Definition renderedStyle (theme : list (string * string)) (c : Component) (p : Props)
  : Style :=
  resolveRule (combinedRule c p) (ruleProps theme p).

(** One render of the component for a DOM element type.  react-fela
    passes [className] (put before the generated class names), [style]
    and [id] to the element without being asked, [innerRef] as its
    [ref], and the props named by [passThroughProps] or by the
    [passThrough] prop; [as] replaces the element type for this render. *)
Definition render (rd : Renderer) (theme : list (string * string))
    (c : Component) (p : Props) : Node :=
  let resolvedPassThrough := (passThroughProps c ++ passThrough p)%list in
  let cls := match truthy (className p) with Some k => k +:+ " " | None => "" end in
  Element (default (type c) (truthy (as_ p)))
    {| dom_className := cls +:+ renderRule rd (combinedRule c p) (ruleProps theme p);
       dom_id := truthy (id p);
       dom_ref := innerRef p;
       dom_style := style p;
       dom_attrs := extractPassThroughProps resolvedPassThrough (otherProps p) |}
    (children p).

(** *** components/card.js *)

Definition Card : Component :=
  createComponent
    (RuleObject
       [("padding", "32px 16px");
        ("flexDirection", "column");
        ("display", "flex");
        ("background", "var(--color-bg-alt)");
        ("boxShadow", "var(--shadow)")])
    (Some "div")
    None.

(** The custom property a value of the form [var(--name)] refers to. *)
Definition var_reference (v : string) : option string :=
  if String.prefix "var(" v && String.eqb (String.substring (String.length v - 1) 1 v) ")"
  then Some (String.substring 4 (String.length v - 5) v)
  else None.

(** The five declarations of Card's rule. *)
Definition cardStyle : Style :=
  [("padding", "32px 16px");
   ("flexDirection", "column");
   ("display", "flex");
   ("background", "var(--color-bg-alt)");
   ("boxShadow", "var(--shadow)")].

(** A renderer for concrete renders: one class name per declaration. *)
Definition atomic : Renderer :=
  {| renderStyle := λ s, String.concat " " ((λ kv, kv.1 +:+ ":" +:+ kv.2) <$> s) |}.

(** *** Facts about rendering *)

Example card_hello :
  render atomic [] Card (only_children [Text "hello"])
  = Element "div"
      {| dom_className :=
           "padding:32px 16px flexDirection:column display:flex "
           +:+ "background:var(--color-bg-alt) boxShadow:var(--shadow)";
         dom_id := None; dom_ref := None; dom_style := None; dom_attrs := [] |}
      [Text "hello"].
Proof. reflexivity. Qed.

Lemma card_combined_style (theme : list (string * string)) (p : Props) :
  renderedStyle theme Card p
  = foldl (λ style r, assignStyle style (resolveRule r (ruleProps theme p)))
      cardStyle (option_list (_felaRule p) ++ option_list (extend p)).
Proof. reflexivity. Qed.

Lemma card_render_unextended (rd : Renderer) (theme : list (string * string)) (p : Props) :
  _felaRule p = None → extend p = None → passThrough p = [] →
  render rd theme Card p
  = Element (default "div" (truthy (as_ p)))
      {| dom_className :=
           match truthy (className p) with Some k => k +:+ " " | None => "" end
           +:+ renderStyle rd cardStyle;
         dom_id := truthy (id p);
         dom_ref := innerRef p;
         dom_style := style p;
         dom_attrs := [] |}
      (children p).
Proof.
  intros Hrule Hext Hpass. unfold render, renderRule, combinedRule.
  rewrite Hrule, Hext, Hpass. reflexivity.
Qed.

(** C5: Card declares a fixed set of style properties (a padding, a flex
    column layout, and a background and a box shadow that refer to the
    custom properties [--color-bg-alt] and [--shadow]) and its element
    type is [div]: rendered with children alone it is a [div] whose class
    is what the renderer makes of these five declarations. *)
Theorem card_is_a_styled_div (rd : Renderer) (theme : list (string * string))
    (cs : list Node) :
  rule Card = RuleObject cardStyle
  ∧ type Card = "div"
  ∧ Actions.assoc "padding" cardStyle = Some "32px 16px"
  ∧ Actions.assoc "display" cardStyle = Some "flex"
  ∧ Actions.assoc "flexDirection" cardStyle = Some "column"
  ∧ Actions.assoc "background" cardStyle ≫= var_reference = Some "--color-bg-alt"
  ∧ Actions.assoc "boxShadow" cardStyle ≫= var_reference = Some "--shadow"
  ∧ render rd theme Card (only_children cs)
    = Element "div"
        {| dom_className := renderStyle rd cardStyle; dom_id := None;
           dom_ref := None; dom_style := None; dom_attrs := [] |}
        cs.
Proof. repeat split. Qed.

(** C6, as the specification states it, fails: the rendered element is
    not a function of the children alone.  Two prop sets with the same
    children, one of them carrying an [id], render to different elements:
    react-fela forwards [id] (like [className], [style], [as] and
    [innerRef]) for every component made by [createComponent]. *)
Lemma card_output_depends_on_id :
  ¬ (∀ (rd : Renderer) (theme : list (string * string)) (p1 p2 : Props),
       children p1 = children p2 → render rd theme Card p1 = render rd theme Card p2).
Proof.
  intros Hclaim.
  specialize (Hclaim atomic [] (only_children [Text "hello"])
    {| children := [Text "hello"]; _felaRule := None; extend := None;
       innerRef := None; id := Some "hero"; style := None; as_ := None;
       className := None; passThrough := []; otherProps := [] |} eq_refl).
  discriminate Hclaim.
Qed.

(** C6, amended: Card has no state and declares no pass-through props,
    and its rule reads no prop.  What it renders is determined by the
    children together with the props react-fela reserves ([as],
    [className], [id], [innerRef], [style]); as long as the extension
    props ([extend], [_felaRule], [passThrough]) are unused, every other
    prop and the theme have no influence on the output. *)
Theorem card_ignores_unreserved_props (rd : Renderer)
    (theme1 theme2 : list (string * string)) (p1 p2 : Props) :
  _felaRule p1 = None → extend p1 = None → passThrough p1 = [] →
  _felaRule p2 = None → extend p2 = None → passThrough p2 = [] →
  children p1 = children p2 →
  as_ p1 = as_ p2 → className p1 = className p2 → id p1 = id p2 →
  innerRef p1 = innerRef p2 → style p1 = style p2 →
  passThroughProps Card = []
  ∧ render rd theme1 Card p1 = render rd theme2 Card p2.
Proof.
  intros Hr1 He1 Hp1 Hr2 He2 Hp2 Hchildren Has Hclass Hid Href Hstyle.
  split; [reflexivity|].
  rewrite !card_render_unextended by done.
  by rewrite Hchildren, Has, Hclass, Hid, Href, Hstyle.
Qed.

Lemma card_ignores_unreserved_props_witness :
  passThroughProps Card = []
  ∧ render atomic [("color", "red")] Card
      {| children := [Text "hello"]; _felaRule := None; extend := None;
         innerRef := None; id := Some "hero"; style := None; as_ := None;
         className := None; passThrough := [];
         otherProps := [("title", "Hello"); ("padding", "0")] |}
    = render atomic [] Card
      {| children := [Text "hello"]; _felaRule := None; extend := None;
         innerRef := None; id := Some "hero"; style := None; as_ := None;
         className := None; passThrough := []; otherProps := [] |}.
Proof.
  apply (card_ignores_unreserved_props atomic [("color", "red")] []); reflexivity.
Defined.

(** C10, as the specification states it, fails: the declarations of a
    render are not the same five for any two prop sets.  A render whose
    props carry [extend] with a padding of its own hands the renderer a
    different padding than a render without it: react-fela writes the
    [extend] rule over Card's. *)
Lemma card_style_depends_on_extend :
  ¬ (∀ (theme1 theme2 : list (string * string)) (p1 p2 : Props),
       renderedStyle theme1 Card p1 = renderedStyle theme2 Card p2).
Proof.
  intros Hclaim.
  specialize (Hclaim [] [] (only_children [])
    {| children := []; _felaRule := None;
       extend := Some (RuleObject [("padding", "0")]);
       innerRef := None; id := None; style := None; as_ := None;
       className := None; passThrough := []; otherProps := [] |}).
  discriminate Hclaim.
Qed.

(** C10, amended: Card's own rule reads no prop, and for any two
    renders whose props carry no extension prop ([extend], or
    [_felaRule] from an enclosing fela component) the declarations handed
    to the renderer are the identical fixed five, [padding],
    [flexDirection], [display], [background] and [boxShadow]: no other
    prop value and no theme value can change them. *)
Theorem card_style_fixed_without_extension (theme1 theme2 : list (string * string))
    (p1 p2 : Props) :
  _felaRule p1 = None → extend p1 = None →
  _felaRule p2 = None → extend p2 = None →
  renderedStyle theme1 Card p1 = renderedStyle theme2 Card p2
  ∧ renderedStyle theme1 Card p1
    = [("padding", "32px 16px");
       ("flexDirection", "column");
       ("display", "flex");
       ("background", "var(--color-bg-alt)");
       ("boxShadow", "var(--shadow)")]
  ∧ ∀ rd : Renderer,
      renderRule rd (combinedRule Card p1) (ruleProps theme1 p1)
      = renderRule rd (combinedRule Card p2) (ruleProps theme2 p2).
Proof.
  intros Hr1 He1 Hr2 He2.
  assert (Hfixed : ∀ theme p, _felaRule p = None → extend p = None →
            renderedStyle theme Card p = cardStyle).
  { intros theme p Hr He. rewrite card_combined_style, Hr, He. reflexivity. }
  split; [by rewrite !Hfixed|]. split; [by apply Hfixed|].
  intros rd. unfold renderRule.
  change (resolveRule (combinedRule Card ?p) (ruleProps ?t ?p))
    with (renderedStyle t Card p).
  by rewrite !Hfixed.
Qed.

Lemma card_style_fixed_without_extension_witness :
  renderedStyle [("color", "red")] Card
    {| children := [Text "hello"]; _felaRule := None; extend := None;
       innerRef := None; id := Some "hero"; style := Some [("padding", "0")];
       as_ := Some "section"; className := Some "wide"; passThrough := ["title"];
       otherProps := [("title", "Hello"); ("padding", "0")] |}
  = renderedStyle [] Card (only_children [])
  ∧ renderedStyle [("color", "red")] Card
      {| children := [Text "hello"]; _felaRule := None; extend := None;
         innerRef := None; id := Some "hero"; style := Some [("padding", "0")];
         as_ := Some "section"; className := Some "wide"; passThrough := ["title"];
         otherProps := [("title", "Hello"); ("padding", "0")] |}
    = [("padding", "32px 16px");
       ("flexDirection", "column");
       ("display", "flex");
       ("background", "var(--color-bg-alt)");
       ("boxShadow", "var(--shadow)")]
  ∧ ∀ rd : Renderer,
      renderRule rd
        (combinedRule Card
           {| children := [Text "hello"]; _felaRule := None; extend := None;
              innerRef := None; id := Some "hero"; style := Some [("padding", "0")];
              as_ := Some "section"; className := Some "wide"; passThrough := ["title"];
              otherProps := [("title", "Hello"); ("padding", "0")] |})
        (ruleProps [("color", "red")]
           {| children := [Text "hello"]; _felaRule := None; extend := None;
              innerRef := None; id := Some "hero"; style := Some [("padding", "0")];
              as_ := Some "section"; className := Some "wide"; passThrough := ["title"];
              otherProps := [("title", "Hello"); ("padding", "0")] |})
      = renderRule rd (combinedRule Card (only_children []))
          (ruleProps [] (only_children [])).
Proof.
  apply (card_style_fixed_without_extension [("color", "red")] []); reflexivity.
Defined.

(** *** Further properties of Card under react-fela *)


Definition element_attrs (n : Node) : list (string * string) :=
  match n with
  | Element _ props _ => dom_attrs props
  | Text _ => []
  end.


Lemma assoc_set_property (k k' v : string) (s : Style) :
  Actions.assoc k' (set_property k v s)
  = if String.eqb k' k then Some v else Actions.assoc k' s.
Proof.
  induction s as [|[k0 v0] s IH]; [reflexivity|]. cbn.
  destruct (String.eqb_spec k k0) as [->|Hne]; cbn.
  - by destruct (String.eqb k' k0).
  - rewrite IH.
    destruct (String.eqb_spec k' k0) as [->|_]; [|reflexivity].
    by apply String.eqb_neq in Hne; rewrite String.eqb_sym, Hne.
Qed.






Lemma assoc_extractPassThroughProps (names : list string)
    (props : list (string * string)) (k : string) :
  Actions.assoc k (extractPassThroughProps names props)
  = if bool_decide (k ∈ names) then Actions.assoc k props else None.
Proof.
  unfold extractPassThroughProps.
  assert (Hgen : ∀ output : list (string * string),
    Actions.assoc k
      (foldl (λ output k0,
                match Actions.assoc k0 props with
                | Some v => set_property k0 v output
                | None => output
                end) output names)
    = match (if bool_decide (k ∈ names) then Actions.assoc k props else None) with
      | Some v => Some v
      | None => Actions.assoc k output
      end).
  { induction names as [|n names IH]; intros output; [reflexivity|].
    cbn [foldl]. rewrite IH.
    destruct (decide (k ∈ names)) as [Hin|Hnin].
    - rewrite !bool_decide_eq_true_2 by set_solver.
      destruct (Actions.assoc k props) eqn:Hk; [reflexivity|].
      destruct (Actions.assoc n props) eqn:Hn; [|reflexivity].
      rewrite assoc_set_property.
      destruct (String.eqb_spec k n) as [->|_]; [congruence|reflexivity].
    - rewrite (bool_decide_eq_false_2 (k ∈ names)) by done.
      destruct (String.eqb_spec k n) as [->|Hne].
      + rewrite bool_decide_eq_true_2 by set_solver.
        destruct (Actions.assoc n props) eqn:Hn; [|reflexivity].
        by rewrite assoc_set_property, String.eqb_refl.
      + rewrite bool_decide_eq_false_2 by (by apply not_elem_of_cons).
        destruct (Actions.assoc n props) eqn:Hn; [|reflexivity].
        rewrite assoc_set_property.
        apply String.eqb_neq in Hne. by rewrite Hne. }
  rewrite Hgen. by destruct (if bool_decide (k ∈ names) then _ else _).
Qed.

(** X7: besides the props react-fela hands to the element of every
    component ([className], [id], [style] and [innerRef], which go to the
    element's own fields), Card gives the element an attribute [k] with
    value [v] exactly when the caller names [k] in the [passThrough]
    prop of that render and sets the prop [k] to [v]: Card itself lists
    no prop to pass through (no third argument to [createComponent]), so
    with an empty [passThrough] no further prop (an event handler, say)
    becomes an attribute. *)
Theorem card_forwards_only_named_props (rd : Renderer)
    (theme : list (string * string)) (p : Props) (k v : string) :
  Actions.assoc k (element_attrs (render rd theme Card p)) = Some v
  ↔ k ∈ passThrough p ∧ Actions.assoc k (otherProps p) = Some v.
Proof.
  cbn [render element_attrs dom_attrs Card createComponent passThroughProps
       default app].
  rewrite assoc_extractPassThroughProps.
  case_bool_decide; [tauto|]. split; [discriminate|tauto].
Qed.

End Fela.

(* ===================================================================== *)
(** ** The article's theme-switching snippets                             *)
(* ===================================================================== *)

(** The JavaScript of the article, read as one program: the [themes]
    object, the head script that defines [window.__onSetTheme] and
    [window.__setTheme], the call that starts the page from a saved theme,
    and the update of [__setTheme] that the article sketches.  The
    browser state the snippets touch is passed explicitly. *)

Module Theming.

(** The [themes] object of the article (both themes carry the same
    values there). *)
Definition themes : list (string * list (string * string)) :=
  [("light", [("color-fg", "#000"); ("color-bg", "#fff")]);
   ("dark", [("color-fg", "#000"); ("color-bg", "#fff")])].

(** Names every object inherits from [Object.prototype]: [themes[name]]
    is defined for them, and [Object.keys] of what it yields is empty. *)
Definition object_prototype : list string :=
  ["constructor"; "__defineGetter__"; "__defineSetter__"; "hasOwnProperty";
   "__lookupGetter__"; "__lookupSetter__"; "isPrototypeOf";
   "propertyIsEnumerable"; "toString"; "valueOf"; "__proto__"; "toLocaleString"].

(** [Object.keys(themes[themeName])] with the values; [None] when
    [themes[themeName]] is [undefined] and [Object.keys] throws. *)
Definition theme_entries (themeName : string) : option (list (string * string)) :=
  match Actions.assoc themeName themes with
  | Some theme => Some theme
  | None => if bool_decide (themeName ∈ object_prototype) then Some [] else None
  end.

(** A function stored in [window.__onSetTheme]: the snippet's empty
    function, or one installed by the application (what it does is the
    application's business; its calls are logged). *)
Inductive Handler :=
| Noop
| App (n : nat).

(** The two versions of [window.__setTheme] in the article: the function
    the head script defines, and the update sketched in lines 119-124.
    The sketch has an ellipsis for a body and is no program as it
    stands; [Persisting] is the sketch completed as the prose directs,
    with the body of the plain version after the call of [setItem]. *)
Inductive SetTheme :=
| Plain
| Persisting.

(** The globals of a page: the custom properties on the root element's
    style, the two [window] slots, and the log of handler calls. *)
Record Page := {
  root : gmap string string;
  __onSetTheme : option Handler;
  __setTheme : option SetTheme;
  calls : list (nat * list (string * string));
}.

(** A browser tab: the page and what outlives it. *)
Record Browser := {
  page : Page;
  localStorage : gmap string string;
  storageWritable : bool;
  darkMatcher_matches : bool;
}.

Inductive Error := TypeError | QuotaExceededError.

(** A script either completes or throws, and the state it leaves behind
    is there in both cases. *)
Inductive Outcome :=
| Done (b : Browser)
| Throws (e : Error) (b : Browser).

Definition final (o : Outcome) : Browser :=
  match o with Done b | Throws _ b => b end.

Definition with_page (b : Browser) (p : Page) : Browser :=
  {| page := p; localStorage := localStorage b;
     storageWritable := storageWritable b; darkMatcher_matches := darkMatcher_matches b |}.

(** [root.setProperty(name, value)]. *)
Definition setProperty (name value : string) (p : Page) : Page :=
  {| root := <[name := value]> (root p); __onSetTheme := __onSetTheme p;
     __setTheme := __setTheme p; calls := calls p |}.

(** [window.__onSetTheme(theme)]: the function in the slot at the time of
    the call. *)
Definition call_onSetTheme (theme : list (string * string)) (p : Page) : option Page :=
  match __onSetTheme p with
  | None => None
  | Some Noop => Some p
  | Some (App n) =>
      Some {| root := root p; __onSetTheme := __onSetTheme p;
              __setTheme := __setTheme p; calls := (calls p ++ [(n, theme)])%list |}
  end.

(** The [forEach] over the keys of the theme. *)
Fixpoint apply_theme (theme keys : list (string * string)) (b : Browser) : Outcome :=
  match keys with
  | [] => Done b
  | (key, value) :: rest =>
      let p := setProperty ("--" +:+ key) value (page b) in
      match call_onSetTheme theme p with
      | Some p' => apply_theme theme rest (with_page b p')
      | None => Throws TypeError (with_page b p)
      end
  end.

(** [window.localStorage.setItem(key, value)]. *)
Definition setItem (key value : string) (b : Browser) : Outcome :=
  if storageWritable b then
    Done {| page := page b; localStorage := <[key := value]> (localStorage b);
            storageWritable := storageWritable b; darkMatcher_matches := darkMatcher_matches b |}
  else Throws QuotaExceededError b.

(** The body of [window.__setTheme]. *)
Definition setTheme_body (themeName : string) (b : Browser) : Outcome :=
  match theme_entries themeName with
  | Some theme => apply_theme theme theme b
  | None => Throws TypeError b
  end.

Definition run_setTheme (v : SetTheme) (themeName : string) (b : Browser) : Outcome :=
  match v with
  | Plain => setTheme_body themeName b
  | Persisting =>
      match setItem "themeName" themeName b with
      | Done b' => setTheme_body themeName b'
      | Throws e b' => Throws e b'
      end
  end.

(** A call [window.__setTheme(themeName)]. *)
Definition call_setTheme (themeName : string) (b : Browser) : Outcome :=
  match __setTheme (page b) with
  | Some v => run_setTheme v themeName b
  | None => Throws TypeError b
  end.

(** An assignment [window.__onSetTheme = f] made by the application. *)
Definition assign_onSetTheme (h : Handler) (b : Browser) : Browser :=
  with_page b {| root := root (page b); __onSetTheme := Some h;
                 __setTheme := __setTheme (page b); calls := calls (page b) |}.

Definition prefersColorScheme (b : Browser) : string :=
  if darkMatcher_matches b then "dark" else "light".

(** The render-blocking script in the head of the page, in either
    version: it defines the two globals and applies the initial theme. *)
Definition head_script (v : SetTheme) (b : Browser) : Outcome :=
  let b1 := with_page b {| root := root (page b); __onSetTheme := Some Noop;
                           __setTheme := Some v; calls := calls (page b) |} in
  match v with
  | Plain => call_setTheme (prefersColorScheme b1) b1
  | Persisting =>
      let savedTheme := localStorage b1 !! "themeName" in
      call_setTheme
        (match savedTheme with
         | Some s => if String.eqb s "" then prefersColorScheme b1 else s
         | None => prefersColorScheme b1
         end) b1
  end.



(** A browser that has never seen the site. *)
Definition fresh : Browser :=
  {| page := {| root := ∅; __onSetTheme := None; __setTheme := None; calls := [] |};
     localStorage := ∅; storageWritable := true; darkMatcher_matches := false |}.

(** The page right after the head script has defined the two globals. *)
Definition installed (v : SetTheme) (b : Browser) : Browser :=
  with_page b {| root := root (page b); __onSetTheme := Some Noop;
                 __setTheme := Some v; calls := calls (page b) |}.

(** *** Facts about the snippets *)

(** The first visit of a page with the plain head script; a call with a
    name that is no theme; a call with a name every object inherits. *)
Example first_visit :
  head_script Plain fresh
  = Done (with_page fresh
            {| root := {["--color-fg" := "#000"; "--color-bg" := "#fff"]};
               __onSetTheme := Some Noop; __setTheme := Some Plain; calls := [] |}).
Proof. reflexivity. Qed.

Example unknown_theme :
  call_setTheme "solarized" (installed Plain fresh)
  = Throws TypeError (installed Plain fresh).
Proof. reflexivity. Qed.

Example inherited_name :
  call_setTheme "toString" (installed Plain fresh) = Done (installed Plain fresh).
Proof. reflexivity. Qed.

Lemma own_theme (themeName : string) (theme : list (string * string)) :
  Actions.assoc themeName themes = Some theme →
  theme = [("color-fg", "#000"); ("color-bg", "#fff")]
  ∧ theme_entries themeName = Some theme.
Proof.
  unfold theme_entries. intros Hlook. rewrite Hlook. split; [|reflexivity].
  cbn in Hlook.
  destruct (String.eqb themeName "light"); [congruence|].
  destruct (String.eqb themeName "dark"); [congruence|discriminate].
Qed.

Lemma apply_theme_localStorage (theme keys : list (string * string)) (b : Browser) :
  localStorage (final (apply_theme theme keys b)) = localStorage b.
Proof.
  revert b. induction keys as [|[key value] keys IH]; intros b; [reflexivity|].
  cbn [apply_theme]. destruct (call_onSetTheme _ _) as [p'|]; [|reflexivity].
  by rewrite IH.
Qed.

Lemma apply_theme_slots (theme keys : list (string * string)) (b : Browser) :
  __onSetTheme (page (final (apply_theme theme keys b))) = __onSetTheme (page b)
  ∧ __setTheme (page (final (apply_theme theme keys b))) = __setTheme (page b).
Proof.
  revert b. induction keys as [|[key value] keys IH]; intros b; [done|].
  cbn [apply_theme]. unfold call_onSetTheme. cbn.
  destruct (__onSetTheme (page b)) as [[|n]|] eqn:Hslot; [| |by cbn].
  - destruct (IH (with_page b (setProperty ("--" +:+ key) value (page b)))) as [-> ->].
    done.
  - match goal with |- context [apply_theme theme keys ?b1] =>
      destruct (IH b1) as [-> ->] end.
    done.
Qed.

Lemma run_setTheme_slots (v : SetTheme) (themeName : string) (b : Browser) :
  __onSetTheme (page (final (run_setTheme v themeName b))) = __onSetTheme (page b)
  ∧ __setTheme (page (final (run_setTheme v themeName b))) = __setTheme (page b).
Proof.
  assert (Hbody : ∀ b0,
    __onSetTheme (page (final (setTheme_body themeName b0))) = __onSetTheme (page b0)
    ∧ __setTheme (page (final (setTheme_body themeName b0))) = __setTheme (page b0)).
  { intros b0. unfold setTheme_body. destruct (theme_entries themeName); [|done].
    apply apply_theme_slots. }
  destruct v; cbn [run_setTheme]; [apply Hbody|].
  unfold setItem. destruct (storageWritable b); [|done].
  match goal with |- context [setTheme_body themeName ?b1] =>
    destruct (Hbody b1) as [-> ->] end.
  done.
Qed.

Lemma setTheme_body_localStorage (themeName : string) (b : Browser) :
  localStorage (final (setTheme_body themeName b)) = localStorage b.
Proof.
  unfold setTheme_body. destruct (theme_entries themeName); [|reflexivity].
  apply apply_theme_localStorage.
Qed.

(** C7, as the specification states it, fails: the article's head script
    is a global mutable state pattern.  Run in a browser that has never
    seen the site, it leaves the globals of the page changed: the two
    [window] slots are defined and the root element carries the custom
    properties of the theme. *)
Lemma head_script_writes_globals :
  ¬ (∀ (v : SetTheme) (b : Browser), page (final (head_script v b)) = page b).
Proof.
  intros Hclaim. specialize (Hclaim Plain fresh).
  apply (f_equal __setTheme) in Hclaim. vm_compute in Hclaim. discriminate.
Qed.

(** C7, amended: global mutable state is present in the article's theme
    snippet.  The head script defines the globals [window.__onSetTheme]
    and [window.__setTheme]; and a call of [window.__setTheme] (the
    version of that script) with the name of a theme overwrites the
    custom properties [--color-fg] and [--color-bg] of the root element
    and calls, once per key, whatever function the global slot
    [window.__onSetTheme] holds at that moment; it changes nothing else
    (neither [window] slot, nor the local storage). *)
Theorem theme_snippet_global_state :
  (∀ (v : SetTheme) (b : Browser),
      __onSetTheme (page (final (head_script v b))) = Some Noop
      ∧ __setTheme (page (final (head_script v b))) = Some v)
  ∧ (∀ (b : Browser) (themeName : string) (theme : list (string * string))
       (h : Handler),
      __setTheme (page b) = Some Plain →
      __onSetTheme (page b) = Some h →
      Actions.assoc themeName themes = Some theme →
      ∃ b', call_setTheme themeName b = Done b'
        ∧ root (page b')
          = <["--color-bg" := "#fff"]> (<["--color-fg" := "#000"]> (root (page b)))
        ∧ calls (page b')
          = (calls (page b)
             ++ match h with Noop => [] | App n => [(n, theme); (n, theme)] end)%list
        ∧ __onSetTheme (page b') = Some h
        ∧ __setTheme (page b') = Some Plain
        ∧ localStorage b' = localStorage b).
Proof.
  split.
  - intros v b.
    assert (Hcall : ∀ name,
      __onSetTheme (page (final (call_setTheme name (installed v b)))) = Some Noop
      ∧ __setTheme (page (final (call_setTheme name (installed v b)))) = Some v).
    { intros name. unfold call_setTheme. cbn [installed with_page page __setTheme].
      destruct (run_setTheme_slots v name (installed v b)) as [-> ->]. done. }
    unfold head_script. destruct v; apply Hcall.
  - intros b themeName theme h Hset Hon Hlook.
    apply own_theme in Hlook as [-> Hentries].
    unfold call_setTheme, run_setTheme, setTheme_body.
    rewrite Hset, Hentries. cbn. unfold call_onSetTheme. cbn. rewrite Hon.
    destruct h as [|n]; cbn; rewrite ?Hon; cbn.
    + eexists. split; [reflexivity|]. cbn. rewrite Hset, app_nil_r. done.
    + eexists. split; [reflexivity|]. cbn. rewrite Hset, <- app_assoc. done.
Qed.

Lemma theme_snippet_global_state_witness :
  ∃ b', call_setTheme "dark" (assign_onSetTheme (App 7) (installed Plain fresh)) = Done b'
    ∧ root (page b') = <["--color-bg" := "#fff"]> (<["--color-fg" := "#000"]> ∅)
    ∧ calls (page b')
      = [(7%nat, [("color-fg", "#000"); ("color-bg", "#fff")]);
         (7%nat, [("color-fg", "#000"); ("color-bg", "#fff")])]
    ∧ __onSetTheme (page b') = Some (App 7)
    ∧ __setTheme (page b') = Some Plain
    ∧ localStorage b' = ∅.
Proof.
  apply (proj2 theme_snippet_global_state
           (assign_onSetTheme (App 7) (installed Plain fresh)) "dark"
           [("color-fg", "#000"); ("color-bg", "#fff")] (App 7));
    reflexivity.
Defined.




(** *** Further properties of the snippets *)

(** The exception a script ended with, if any. *)
Definition thrown (o : Outcome) : option Error :=
  match o with
  | Done _ => None
  | Throws e _ => Some e
  end.

(** The page after a theme of the [themes] object has been applied with
    handler [h] in the slot. *)
Definition themed (h : Handler) (theme : list (string * string)) (b : Browser) : Browser :=
  with_page b
    {| root := <["--color-bg" := "#fff"]> (<["--color-fg" := "#000"]> (root (page b)));
       __onSetTheme := Some h;
       __setTheme := __setTheme (page b);
       calls := (calls (page b)
                 ++ match h with Noop => [] | App n => [(n, theme); (n, theme)] end)%list |}.

Lemma setTheme_body_own (b : Browser) (themeName : string)
    (theme : list (string * string)) (h : Handler) :
  __onSetTheme (page b) = Some h →
  Actions.assoc themeName themes = Some theme →
  setTheme_body themeName b = Done (themed h theme b).
Proof.
  intros Hon Hlook. apply own_theme in Hlook as [-> Hentries].
  unfold setTheme_body. rewrite Hentries. cbn. unfold call_onSetTheme. cbn.
  rewrite Hon. unfold themed.
  destruct h as [|n]; cbn; rewrite ?Hon; unfold with_page, setProperty; cbn;
    rewrite ?Hon, ?app_nil_r, <- ?app_assoc; reflexivity.
Qed.

Lemma apply_theme_page (theme keys : list (string * string)) (b1 b2 : Browser) :
  page b1 = page b2 →
  page (final (apply_theme theme keys b1)) = page (final (apply_theme theme keys b2))
  ∧ thrown (apply_theme theme keys b1) = thrown (apply_theme theme keys b2).
Proof.
  revert b1 b2. induction keys as [|[key value] keys IH]; intros b1 b2 Hpage; [done|].
  cbn [apply_theme]. rewrite Hpage.
  destruct (call_onSetTheme _ _) as [p'|]; [|done].
  by apply IH.
Qed.

(** X8: [window.__setTheme] called with a name that is no key of
    [themes] never changes anything: it throws a [TypeError] from
    [Object.keys(undefined)] before any property is set, except for the
    names every object inherits ([toString], [constructor], ...), for
    which it returns silently. *)
Theorem setTheme_of_no_theme (b : Browser) (themeName : string) :
  __setTheme (page b) = Some Plain →
  Actions.assoc themeName themes = None →
  call_setTheme themeName b
  = if bool_decide (themeName ∈ object_prototype) then Done b else Throws TypeError b.
Proof.
  intros Hset Hlook. unfold call_setTheme, run_setTheme, setTheme_body, theme_entries.
  rewrite Hset, Hlook. by case_bool_decide.
Qed.

Lemma setTheme_of_no_theme_witness :
  call_setTheme "solarized" (installed Plain fresh)
  = if bool_decide ("solarized" ∈ object_prototype)
    then Done (installed Plain fresh)
    else Throws TypeError (installed Plain fresh).
Proof.
  apply (setTheme_of_no_theme (installed Plain fresh) "solarized"); reflexivity.
Defined.

(** X12: applying a theme twice is the same as applying it once, as far
    as the page's style goes: the second call of [__setTheme] with the
    same name leaves the custom properties of the root element as the
    first call set them, and with the empty handler in the slot it leaves
    the whole browser state unchanged. *)
Theorem setTheme_twice (b : Browser) (themeName : string)
    (theme : list (string * string)) (h : Handler) :
  __setTheme (page b) = Some Plain →
  __onSetTheme (page b) = Some h →
  Actions.assoc themeName themes = Some theme →
  ∃ b1 b2,
    call_setTheme themeName b = Done b1
    ∧ call_setTheme themeName b1 = Done b2
    ∧ root (page b2) = root (page b1)
    ∧ (h = Noop → b2 = b1).
Proof.
  intros Hset Hon Hlook.
  exists (themed h theme b), (themed h theme (themed h theme b)).
  assert (Hroot : root (page (themed h theme (themed h theme b)))
                  = root (page (themed h theme b))).
  { cbn. apply map_eq. intros i. rewrite !lookup_insert.
    by repeat case_decide. }
  split; [|split; [|split]].
  - unfold call_setTheme. rewrite Hset. by apply setTheme_body_own.
  - unfold call_setTheme. cbn [themed with_page page __setTheme]. rewrite Hset.
    by apply setTheme_body_own.
  - exact Hroot.
  - intros ->. unfold themed, with_page in *. cbn in *.
    rewrite Hroot, !app_nil_r. reflexivity.
Qed.

Lemma setTheme_twice_witness :
  ∃ b1 b2,
    call_setTheme "dark" (installed Plain fresh) = Done b1
    ∧ call_setTheme "dark" b1 = Done b2
    ∧ root (page b2) = root (page b1)
    ∧ (Noop = Noop → b2 = b1).
Proof.
  apply (setTheme_twice (installed Plain fresh) "dark"
           [("color-fg", "#000"); ("color-bg", "#fff")] Noop); reflexivity.
Defined.

(** X13: the two themes of the [themes] object carry the same values, so
    the page cannot tell them apart: in every browser state and with
    either version of [__setTheme], a call with one theme name leaves the
    root properties and the [window] slots exactly as a call with the
    other would, calls the handler as often and with the same values,
    and throws in the same cases. *)
Theorem every_theme_gives_the_same_page (b : Browser) (name1 name2 : string)
    (theme1 theme2 : list (string * string)) :
  Actions.assoc name1 themes = Some theme1 →
  Actions.assoc name2 themes = Some theme2 →
  page (final (call_setTheme name1 b)) = page (final (call_setTheme name2 b))
  ∧ thrown (call_setTheme name1 b) = thrown (call_setTheme name2 b).
Proof.
  intros [-> Hentries1]%own_theme [-> Hentries2]%own_theme.
  assert (Hbody : ∀ b1 b2, page b1 = page b2 →
            page (final (setTheme_body name1 b1)) = page (final (setTheme_body name2 b2))
            ∧ thrown (setTheme_body name1 b1) = thrown (setTheme_body name2 b2)).
  { intros b1 b2 Hpage. unfold setTheme_body. rewrite Hentries1, Hentries2.
    by apply apply_theme_page. }
  unfold call_setTheme. destruct (__setTheme (page b)) as [[|]|]; [| |done].
  - by apply Hbody.
  - cbn [run_setTheme]. unfold setItem. destruct (storageWritable b); [|done].
    by apply Hbody.
Qed.

Lemma every_theme_gives_the_same_page_witness :
  page (final (call_setTheme "light" (assign_onSetTheme (App 7) (installed Persisting fresh))))
  = page (final (call_setTheme "dark" (assign_onSetTheme (App 7) (installed Persisting fresh))))
  ∧ thrown (call_setTheme "light" (assign_onSetTheme (App 7) (installed Persisting fresh)))
    = thrown (call_setTheme "dark" (assign_onSetTheme (App 7) (installed Persisting fresh))).
Proof.
  apply (every_theme_gives_the_same_page
           (assign_onSetTheme (App 7) (installed Persisting fresh)) "light" "dark"
           [("color-fg", "#000"); ("color-bg", "#fff")]
           [("color-fg", "#000"); ("color-bg", "#fff")]); reflexivity.
Defined.

End Theming.
